(** * The Cayena ETL workflow: [dags/cayena_etl/project_dag.py]

  The repository holds one Airflow DAG, [gcp-gcs-bigquery-cayena].  It
  provisions a bucket, calls the scraping routine [etl_web_scrapping],
  lists the bucket, provisions a BigQuery dataset, loads the CSV objects
  of the bucket into a table and checks that the table is not empty.

  The development has four parts:
  - the DAG as the source declares it (operators, their arguments and
    the task sequence);
  - the behaviour of the Airflow operators the DAG instantiates, over an
    explicit model of the cloud state;
  - the scraping routine, whose module ([cayena_etl.src.domain.main]) is
    not part of the sources at hand and is therefore modelled from the
    specification;
  - the properties. *)

From Stdlib Require Import Ascii.
From stdpp Require Import gmap strings list fin_maps pretty.

#[local] Set Warnings "-clear-no-such-hyp".

(** ** Text helpers *)

Module Text.

(** [strip_prefix p s] removes the leading [p] from [s]. *)
Fixpoint strip_prefix (p s : string) : option string :=
  match p with
  | EmptyString => Some s
  | String a p' =>
      match s with
      | EmptyString => None
      | String b s' => if decide (a = b) then strip_prefix p' s' else None
      end
  end.

Definition starts_with (p s : string) : bool :=
  match strip_prefix p s with Some _ => true | None => false end.

(** Matching of an object name against a source URI pattern.  The only
    metacharacter is the wildcard [*], which stands for any run of
    characters, the separator [/] included (the rule BigQuery applies to
    the URIs of a load job). *)
Fixpoint glob_match (p s : string) : bool :=
  match p with
  | EmptyString => match s with EmptyString => true | _ => false end
  | String a p' =>
      if decide (a = "*"%char) then
        (fix star (t : string) : bool :=
           glob_match p' t ||
           match t with
           | EmptyString => false
           | String _ t' => star t'
           end) s
      else
        match s with
        | EmptyString => false
        | String b s' => if decide (a = b) then glob_match p' s' else false
        end
  end.

(** Joining path components or fields with a separator. *)
Fixpoint join (sep : string) (l : list string) : string :=
  match l with
  | [] => ""
  | [x] => x
  | x :: l' => x +:+ sep +:+ join sep l'
  end.

(** The first value bound to [k] in a list of pairs (a keyword-argument
    dictionary, a vocabulary). *)
Fixpoint assoc {A} (k : string) (l : list (string * A)) : option A :=
  match l with
  | [] => None
  | (k', v) :: l' => if decide (k = k') then Some v else assoc k l'
  end.

(** The position of the first occurrence of [x]. *)
Fixpoint index_of (x : string) (l : list string) : option nat :=
  match l with
  | [] => None
  | y :: l' => if decide (x = y) then Some 0 else S <$> index_of x l'
  end.


End Text.

(** ** The DAG, as declared by the source *)

(** *** Imported variables

  [Variable.get] reads the Airflow variable store, a table shared by
  every DAG of the deployment, and raises when the key is missing (no
  default is given). *)

Definition Variable_get (store : gmap string string) (key : string) : option string :=
  store !! key.

(** The five module-level names bound by the [import variables] block. *)
Record globals := {
  PROJECT_ID : string;
  CAYENA_BUCKET : string;
  BUCKET_LOCATION : string;
  BQ_DATASET_NAME : string;
  BQ_TABLE_NAME : string
}.

(** The block runs when the module is loaded; one missing key aborts it. *)
Definition import_variables (store : gmap string string) : option globals :=
  p ← Variable_get store "cayena_project_id";
  b ← Variable_get store "cayena_bucket";
  l ← Variable_get store "cayena_bucket_location";
  d ← Variable_get store "cayena_bq_dataset_name";
  t ← Variable_get store "cayena_bq_table_name";
  Some {| PROJECT_ID := p; CAYENA_BUCKET := b; BUCKET_LOCATION := l;
        BQ_DATASET_NAME := d; BQ_TABLE_NAME := t |}.

(** The keys the block reads, and the store in which exactly these keys
    are set to the values of [g]. *)
Definition variable_keys : list string :=
  ["cayena_project_id"; "cayena_bucket"; "cayena_bucket_location";
   "cayena_bq_dataset_name"; "cayena_bq_table_name"].

Definition variables_of (g : globals) : gmap string string :=
  <["cayena_project_id" := PROJECT_ID g]>
    (<["cayena_bucket" := CAYENA_BUCKET g]>
       (<["cayena_bucket_location" := BUCKET_LOCATION g]>
          (<["cayena_bq_dataset_name" := BQ_DATASET_NAME g]>
             (<["cayena_bq_table_name" := BQ_TABLE_NAME g]> ∅)))).

(** *** Operators *)

(** The only Python callable handed to a [PythonOperator]. *)
Inductive callable := etl_web_scrapping.

Record GoogleCloudStorageCreateBucketOperator := {
  bucket_name : string;
  storage_class : string;
  location : string;
  labels : list (string * string);
  gcb_gcp_conn_id : string
}.

Record PythonOperator := {
  python_callable : callable;
  provide_context : bool;
  op_kwargs : list (string * string)
}.

Record GCSListObjectsOperator := {
  lst_bucket : string;
  prefix : string;
  lst_gcp_conn_id : string
}.

Record BigQueryCreateEmptyDatasetOperator := {
  dataset_id : string;
  cds_gcp_conn_id : string
}.

(** [schema_fields] and [schema_object] are the two arguments by which a
  load declares its schema; an argument the source does not pass is
  [None]. *)
Record GCSToBigQueryOperator := {
  bucket : string;
  source_objects : list string;
  destination_project_dataset_table : string;
  schema_fields : option (list (string * string));
  schema_object : option string;
  source_format : string;
  write_disposition : string;
  autodetect : bool;
  skip_leading_rows : nat;
  time_partitioning : list (string * string);
  gbq_gcp_conn_id : string
}.

Record BigQueryCheckOperator := {
  sql : string;
  use_legacy_sql : bool;
  chk_location : string;
  chk_gcp_conn_id : string
}.

Inductive operator :=
  | DummyOperator
  | CreateBucket (o : GoogleCloudStorageCreateBucketOperator)
  | Python (o : PythonOperator)
  | ListObjects (o : GCSListObjectsOperator)
  | CreateDataset (o : BigQueryCreateEmptyDatasetOperator)
  | GCSToBigQuery (o : GCSToBigQueryOperator)
  | BigQueryCheck (o : BigQueryCheckOperator).

Record task := { task_id : string; op : operator }.

(** *** The tasks *)

Section Tasks.

Variable g : globals.

Definition start : task := {| task_id := "start"; op := DummyOperator |}.

Definition end_ : task := {| task_id := "end"; op := DummyOperator |}.

Definition create_gcs_cayena_bucket_op : GoogleCloudStorageCreateBucketOperator :=
  {| bucket_name := CAYENA_BUCKET g;
     storage_class := "STANDARD";
     location := BUCKET_LOCATION g;
     labels := [("env", "dev"); ("team", "airflow")];
     gcb_gcp_conn_id := "gcp_cayena" |}.

Definition create_gcs_cayena_bucket : task :=
  {| task_id := "create_gcs_cayena_bucket";
     op := CreateBucket create_gcs_cayena_bucket_op |}.

Definition run_web_scrapping_script_op : PythonOperator :=
  {| python_callable := etl_web_scrapping;
     provide_context := true;
     op_kwargs := [("ingestion_date", "{{ ds }}");
                   ("bucket_name", CAYENA_BUCKET g)] |}.

Definition run_web_scrapping_script : task :=
  {| task_id := "run_web_scrapping_script";
     op := Python run_web_scrapping_script_op |}.

Definition list_files_from_cayena_bucket_books_daily_data_op : GCSListObjectsOperator :=
  {| lst_bucket := CAYENA_BUCKET g;
     prefix := "books-daily-data/";
     lst_gcp_conn_id := "gcp_cayena" |}.

Definition list_files_from_cayena_bucket_books_daily_data : task :=
  {| task_id := "list_files_from_cayena_bucket_books_daily_data";
     op := ListObjects list_files_from_cayena_bucket_books_daily_data_op |}.

Definition bq_create_dataset_cayena_op : BigQueryCreateEmptyDatasetOperator :=
  {| dataset_id := BQ_DATASET_NAME g;
     cds_gcp_conn_id := "gcp_cayena" |}.

Definition bq_create_dataset_cayena : task :=
  {| task_id := "bq_create_dataset_cayena";
     op := CreateDataset bq_create_dataset_cayena_op |}.

Definition ingest_books_into_table_cayene_op : GCSToBigQueryOperator :=
  {| bucket := CAYENA_BUCKET g;
     source_objects := ["books-daily-data/*.csv"];
     destination_project_dataset_table :=
       PROJECT_ID g +:+ "." +:+ BQ_DATASET_NAME g +:+ "." +:+ BQ_TABLE_NAME g;
     schema_fields := None;
     schema_object := None;
     source_format := "csv";
     write_disposition := "WRITE_TRUNCATE";
     autodetect := true;
     skip_leading_rows := 1;
     time_partitioning := [("field", "ingestion_date"); ("type", "DAY")];
     gbq_gcp_conn_id := "gcp_cayena" |}.

Definition ingest_books_into_table_cayene : task :=
  {| task_id := "ingest_books_into_table_cayene";
     op := GCSToBigQuery ingest_books_into_table_cayene_op |}.

Definition check_bq_cayena_table_count_op : BigQueryCheckOperator :=
  {| sql := "SELECT COUNT(*) FROM " +:+ BQ_DATASET_NAME g +:+ "." +:+ BQ_TABLE_NAME g;
     use_legacy_sql := false;
     chk_location := "US";
     chk_gcp_conn_id := "gcp_cayena" |}.

Definition check_bq_cayena_table_count : task :=
  {| task_id := "check_bq_cayena_table_count";
     op := BigQueryCheck check_bq_cayena_table_count_op |}.

(** *** The task sequence

    [t1 >> t2 >> ... >> tn] makes each task the single downstream of the
    one before it.  [task_sequence] lists the operands in the order they
    are written. *)
Definition task_sequence : list task :=
  [ start;
    create_gcs_cayena_bucket;
    run_web_scrapping_script;
    list_files_from_cayena_bucket_books_daily_data;
    bq_create_dataset_cayena;
    ingest_books_into_table_cayene;
    check_bq_cayena_table_count;
    end_ ].

End Tasks.

(** [chain l] is the set of edges [a >> b >> c ...] adds to the graph. *)
Fixpoint chain (l : list task) : list (string * string) :=
match l with
| a :: ((b :: _) as l') => (task_id a, task_id b) :: chain l'
| _ => []
end.

Record DAG := {
  dag_id : string;
  schedule_interval : string;
  catchup : bool;
  depends_on_past : bool;
  tasks : list task;
  edges : list (string * string)
}.

Definition dag (g : globals) : DAG :=
{| dag_id := "gcp-gcs-bigquery-cayena";
   schedule_interval := "@daily";
   catchup := false;
   depends_on_past := false;
   tasks := task_sequence g;
   edges := chain (task_sequence g) |}.

(** The tasks directly upstream of the task named [t]. *)
Definition upstream (d : DAG) (t : string) : list string :=
(filter (λ e, e.2 = t) (edges d)).*1.

(** ** The cloud state the operators act on *)

(** A CSV object is held as its rows, the first one being the header. *)
Definition row := list string.
Definition csv := list row.

(** The bytes of a CSV object: fields separated by commas, one row a line. *)
Definition render_csv (c : csv) : string :=
  Text.join (String "010"%char "") (Text.join "," <$> c).

Record table := {
  schema : list string;
  rows : list row
}.

(** [gcs_objects] is keyed by bucket and object name, [bq_tables] by the
    fully qualified name [project.dataset.table]. *)
Record world := {
  gcs_buckets : gset string;
  gcs_objects : gmap (string * string) csv;
  bq_datasets : gset string;
  bq_tables : gmap string table
}.

Definition with_bucket (b : string) (w : world) : world :=
  {| gcs_buckets := {[b]} ∪ gcs_buckets w;
     gcs_objects := gcs_objects w;
     bq_datasets := bq_datasets w;
     bq_tables := bq_tables w |}.

Definition with_object (b name : string) (c : csv) (w : world) : world :=
  {| gcs_buckets := gcs_buckets w;
     gcs_objects := <[(b, name) := c]> (gcs_objects w);
     bq_datasets := bq_datasets w;
     bq_tables := bq_tables w |}.

Definition with_dataset (d : string) (w : world) : world :=
  {| gcs_buckets := gcs_buckets w;
     gcs_objects := gcs_objects w;
     bq_datasets := {[d]} ∪ bq_datasets w;
     bq_tables := bq_tables w |}.

Definition with_table (name : string) (t : table) (w : world) : world :=
  {| gcs_buckets := gcs_buckets w;
     gcs_objects := gcs_objects w;
     bq_datasets := bq_datasets w;
     bq_tables := <[name := t]> (bq_tables w) |}.

(** ** The scraping routine [etl_web_scrapping]

    The DAG imports [etl_web_scrapping] from [cayena_etl.src.domain.main],
    a module that is not among the sources.  Everything in [Core] is
    therefore written from the specification (sections 3 to 7); the
    definitions that decide a property say so again in their own comment. *)

Module Core.

(** *** Data model *)

Record PageRequest := {
  index : nat;
  url : string
}.

Record RawRecord := {
  raw_title : string;
  price_text : string;
  availability_text : string;
  rating_text : string;
  raw_source_url : string
}.

(** [price] is held in hundredths of the currency unit. *)
Record ProductRecord := {
  title : string;
  price : N;
  in_stock : bool;
  rating : nat;
  source_url : string;
  ingestion_date : string
}.

Record Batch := {
  batch_date : string;
  records : list ProductRecord;
  record_count : nat
}.

Record Artifact := {
  art_bucket : string;
  path : string;
  content : csv;
  checksum : string
}.

(** What one network request comes back with. *)
Inductive response :=
  | Body (page : string)
  | NoMorePages
  | TransientFailure.

Inductive fetch_result :=
  | PageContent (page : string)
  | EndOfPages
  | FetchError.

Inductive run_error :=
  | FatalFetchError (page : nat)
  | PublishError.

Record summary := {
  pages_fetched : nat;
  records_extracted : nat;
  items_skipped : nat;
  parse_warnings : nat;
  records_rejected : nat;
  records_deduplicated : nat;
  final_record_count : nat
}.

Inductive run_result :=
  | Done (a : Artifact) (s : summary)
  | Failed (e : run_error).

(** The points the specification leaves to the implementation: the page
    URL template, the retry budget, the recognition of item containers in
    a page (the Extractor's capability), the reading of prices, the
    vocabularies of availability and rating, the name of the object inside
    its dated folder and the checksum function. *)
Class Choices := {
  page_url : nat → string;
  max_attempts : nat;
  item_containers : string → option (list (option RawRecord));
  parse_price : string → option Z;
  availability_vocabulary : list (string * bool);
  rating_scale : list (string * nat);
  object_stem : string;
  digest : string → string
}.

(** The network, seen from the Fetcher: the answer to the [k]-th request
    for a URL. *)
Definition network := string → nat → response.

Section Pipeline.

Context `{Choices}.

(** *** 4.1 Page Fetcher *)

Definition page_request (i : nat) : PageRequest :=
  {| index := i; url := page_url i |}.

(** [attempts net u left k]: request [u] for the [k]-th time, with [left]
    requests still allowed. *)
Fixpoint attempts (net : network) (u : string) (left k : nat) : fetch_result :=
  match left with
  | 0 => FetchError
  | S left' =>
      match net u k with
      | Body page => PageContent page
      | NoMorePages => EndOfPages
      | TransientFailure => attempts net u left' (S k)
      end
  end.

(** Modelled from the spec: the Page Fetcher of [etl_web_scrapping]
    (section 4.1), missing from the sources.  One request per attempt;
    a transient failure is retried until [max_attempts] requests are
    spent. *)
Definition fetch (net : network) (i : nat) : fetch_result :=
  attempts net (url (page_request i)) max_attempts 0.

(** *** 4.2 Record Extractor *)

(** Modelled from the spec: the Record Extractor of [etl_web_scrapping]
    (section 4.2), missing from the sources.  The parsable items of a page
    in document order; a page whose structure cannot be read gives none. *)
Definition extract (page : string) : list RawRecord :=
  match item_containers page with
  | Some items => omap id items
  | None => []
  end.

Definition skipped_items (page : string) : nat :=
  match item_containers page with
  | Some items => length (filter (λ i, i = None) items)
  | None => 0
  end.

Definition structural_warning (page : string) : nat :=
  match item_containers page with Some _ => 0 | None => 1 end.

(** *** 4.3 Record Normalizer *)

(** Modelled from the spec: the Record Normalizer of [etl_web_scrapping]
    (section 4.3), missing from the sources.  [None] is [Rejected]. *)
Definition normalize (d : string) (r : RawRecord) : option ProductRecord :=
  if decide (raw_title r = "") then None else
  match parse_price (price_text r), Text.assoc (rating_text r) rating_scale with
  | Some p, Some stars =>
      if decide (0 ≤ p)%Z then
        if decide (stars ≤ 5) then
          Some {| title := raw_title r;
                  price := Z.to_N p;
                  in_stock := default false (Text.assoc (availability_text r) availability_vocabulary);
                  rating := stars;
                  source_url := raw_source_url r;
                  ingestion_date := d |}
        else None
      else None
  | _, _ => None
  end.

(** The state of a run while pages are traversed; [kept] is in the order
    of acceptance. *)
Record progress := {
  seen : gset (string * string);
  kept : list ProductRecord;
  counters : summary
}.

Definition no_progress : progress :=
  {| seen := ∅;
     kept := [];
     counters := {| pages_fetched := 0; records_extracted := 0; items_skipped := 0;
                    parse_warnings := 0; records_rejected := 0;
                    records_deduplicated := 0; final_record_count := 0 |} |}.

Definition count_rejected (c : summary) : summary :=
  {| pages_fetched := pages_fetched c; records_extracted := records_extracted c;
     items_skipped := items_skipped c; parse_warnings := parse_warnings c;
     records_rejected := S (records_rejected c);
     records_deduplicated := records_deduplicated c;
     final_record_count := final_record_count c |}.

Definition count_deduplicated (c : summary) : summary :=
  {| pages_fetched := pages_fetched c; records_extracted := records_extracted c;
     items_skipped := items_skipped c; parse_warnings := parse_warnings c;
     records_rejected := records_rejected c;
     records_deduplicated := S (records_deduplicated c);
     final_record_count := final_record_count c |}.

Definition count_kept (c : summary) : summary :=
  {| pages_fetched := pages_fetched c; records_extracted := records_extracted c;
     items_skipped := items_skipped c; parse_warnings := parse_warnings c;
     records_rejected := records_rejected c;
     records_deduplicated := records_deduplicated c;
     final_record_count := S (final_record_count c) |}.

Definition count_page (page : string) (c : summary) : summary :=
  {| pages_fetched := S (pages_fetched c);
     records_extracted := records_extracted c + length (extract page);
     items_skipped := items_skipped c + skipped_items page;
     parse_warnings := parse_warnings c + structural_warning page;
     records_rejected := records_rejected c;
     records_deduplicated := records_deduplicated c;
     final_record_count := final_record_count c |}.

(** Modelled from the spec: deduplication by (title, source_url) within
    the run (section 4.3), missing from the sources.  One raw record
    through normalisation and deduplication. *)
Definition take_record (d : string) (st : progress) (r : RawRecord) : progress :=
  match normalize d r with
  | None =>
      {| seen := seen st; kept := kept st; counters := count_rejected (counters st) |}
  | Some p =>
      if decide ((title p, source_url p) ∈ seen st) then
        {| seen := seen st; kept := kept st;
           counters := count_deduplicated (counters st) |}
      else
        {| seen := {[(title p, source_url p)]} ∪ seen st;
           kept := kept st ++ [p];
           counters := count_kept (counters st) |}
  end.

Definition take_page (d : string) (st : progress) (page : string) : progress :=
  foldl (take_record d)
        {| seen := seen st; kept := kept st; counters := count_page page (counters st) |}
        (extract page).

(** Modelled from the spec: the page loop of [etl_web_scrapping]
    (state machine of section 4), missing from the sources.
    The traversal [FETCHING(page) → EXTRACTING → NORMALIZING → FETCHING
    (page + 1)], left at [EndOfPages] or at the first [FetchError].
    [fuel] bounds the number of pages requested. *)
Fixpoint traverse (net : network) (d : string) (fuel page : nat) (st : progress)
  : option (run_error + progress) :=
  match fuel with
  | 0 => None
  | S fuel' =>
      match fetch net page with
      | EndOfPages => Some (inr st)
      | FetchError => Some (inl (FatalFetchError page))
      | PageContent body => traverse net d fuel' (S page) (take_page d st body)
      end
  end.

(** *** 4.4 Batch Writer *)

(** Modelled from the spec: the Batch of section 3, missing from the
    sources; its [record_count] is the counter kept during traversal. *)
Definition make_batch (d : string) (st : progress) : Batch :=
  {| batch_date := d;
     records := kept st;
     record_count := final_record_count (counters st) |}.

Definition header : row :=
  ["title"; "price"; "in_stock"; "rating"; "source_url"; "ingestion_date"].

Definition two_digits (n : N) : string :=
  if (n <? 10)%N then "0" +:+ pretty n else pretty n.

Definition price_text_of (p : N) : string :=
  pretty (p `div` 100)%N +:+ "." +:+ two_digits (p `mod` 100)%N.

Definition bool_text (b : bool) : string := if b then "true" else "false".

Definition row_of (p : ProductRecord) : row :=
  [ title p; price_text_of (price p); bool_text (in_stock p);
    pretty (rating p); source_url p; ingestion_date p ].

(** Modelled from the spec: the Batch Writer of [etl_web_scrapping]
    (section 4.4), missing from the sources.  One leading schema row,
    then one row per record, in the order given. *)
Definition write (rs : list ProductRecord) : csv :=
  header :: (row_of <$> rs).

(** *** 4.5 Artifact Publisher *)

(** Modelled from the spec: the object name of section 6, missing from
    the sources.  The fixed prefix is the one under which the DAG lists
    and loads the objects. *)
Definition fixed_prefix : string := "books-daily-data".

Definition path_components (d : string) : list string :=
  [fixed_prefix; d; object_stem +:+ ".csv"].

Definition artifact_path (d : string) : string :=
  Text.join "/" (path_components d).

(** Modelled from the spec: the Artifact Publisher of [etl_web_scrapping]
    (section 4.5), missing from the sources.  The object is put in one
    step under its final name; an object already at that name is
    replaced.  A destination that does not exist is a [PublishError]. *)
Definition publish (c : csv) (d target : string) (w : world) : (run_error + Artifact) * world :=
  if decide (target ∈ gcs_buckets w) then
    (inr {| art_bucket := target; path := artifact_path d; content := c;
            checksum := digest (render_csv c) |},
     with_object target (artifact_path d) c w)
  else (inl PublishError, w).

Definition uri (a : Artifact) : string := art_bucket a +:+ "/" +:+ path a.

(** *** One run *)



(** Modelled from the spec: the body of [etl_web_scrapping] (state machine
    of section 4, errors of section 7), missing from the sources.  An
    empty catalog is written and published like any other; a fatal error
    leaves the destination as it was.  [None] only when [fuel] pages did
    not reach the end of the catalog. *)
Definition run (net : network) (fuel : nat) (d target : string) (w : world)
  : option (run_result * world) :=
  match traverse net d fuel 1 no_progress with
  | None => None
  | Some (inl e) => Some (Failed e, w)
  | Some (inr st) =>
      let b := make_batch d st in
      match publish (write (records b)) (batch_date b) target w with
      | (inl e, w') => Some (Failed e, w')
      | (inr a, w') => Some (Done a (counters st), w')
      end
  end.

End Pipeline.

End Core.

(** ** Running the DAG *)

(** What a task instance is given by the scheduler: [ds] is the logical
    date of the run ([YYYY-MM-DD]), [started_at] the time at which the
    task happens to execute. *)
Record context := {
  ds : string;
  run_id : string;
  started_at : string
}.

(** Rendering of a templated argument: every occurrence of the macro
    [{{ ds }}], the only one the DAG uses, is replaced by the logical
    date.  [skip] counts the characters of a macro still to be dropped. *)
Fixpoint render_from (c : context) (skip : nat) (s : string) : string :=
  match s with
  | EmptyString => ""
  | String a s' =>
      match skip with
      | S k => render_from c k s'
      | 0 =>
          if Text.starts_with "{{ ds }}" s then ds c +:+ render_from c 7 s'
          else String a (render_from c 0 s')
      end
  end.

Definition render_template (c : context) (s : string) : string :=
  render_from c 0 s.

(** Of the templated arguments of the operators only [op_kwargs] carries
    a macro in the DAG; the others are taken as written, which is what
    rendering gives for a value that holds no macro. *)
Definition render_kwargs (c : context) (kw : list (string * string)) : list (string * string) :=
  (λ kv, (kv.1, render_template c kv.2)) <$> kw.

(** What lies outside the DAG file: the project of the connection
    [gcp_cayena], whether the two provisioning operators accept a resource
    that is already there, the website, and the number of pages after
    which a scraping task is given up. *)
Record deployment := {
  default_project : string;
  bucket_exists_ok : bool;
  dataset_exists_ok : bool;
  web : Core.network;
  page_budget : nat
}.

Inductive task_state := success | failed | upstream_failed.

Global Instance task_state_eq_dec : EqDecision task_state.
Proof. solve_decision. Defined.

(** The states of the task instances of a run, in the order in which the
    scheduler has set them, and the state of the task named [id]. *)
Definition state_of (st : list (string * task_state)) (id : string) : option task_state :=
  Text.assoc id st.

Section Execution.

Context `{Core.Choices}.

Variable dep : deployment.

(** *** Operators.  [None] stands for an exception raised by [execute]. *)

Definition create_bucket (o : GoogleCloudStorageCreateBucketOperator) (w : world) : option world :=
  if decide (bucket_name o ∈ gcs_buckets w) then
    if bucket_exists_ok dep then Some w else None
  else Some (with_bucket (bucket_name o) w).

Definition create_dataset (o : BigQueryCreateEmptyDatasetOperator) (w : world) : option world :=
  if decide (dataset_id o ∈ bq_datasets w) then
    if dataset_exists_ok dep then Some w else None
  else Some (with_dataset (dataset_id o) w).

(** The callable is applied to the rendered keyword arguments; a missing
    argument is a [TypeError]. *)
Definition call (f : callable) (kw : list (string * string)) (w : world) : option world :=
  match f with
  | etl_web_scrapping =>
      match Text.assoc "ingestion_date" kw, Text.assoc "bucket_name" kw with
      | Some d, Some b =>
          match Core.run (web dep) (page_budget dep) d b w with
          | Some (Core.Done _ _, w') => Some w'
          | _ => None
          end
      | _, _ => None
      end
  end.

Definition list_objects (o : GCSListObjectsOperator) (w : world) : option (list string) :=
  if decide (lst_bucket o ∈ gcs_buckets w) then
    Some (filter (λ n, Text.starts_with (prefix o) n)
                 ((filter (λ k, k.1 = lst_bucket o) (map_to_list (gcs_objects w)).*1).*2))
  else None.

(** The objects a load reads: those of the bucket whose name matches one
    of the source patterns. *)
Definition matches_source (o : GCSToBigQueryOperator) (k : string * string) : bool :=
  bool_decide (k.1 = bucket o) && existsb (λ p, Text.glob_match p k.2) (source_objects o).

Definition source_files (o : GCSToBigQueryOperator) (w : world) : list csv :=
  (filter (λ kv, matches_source o kv.1) (map_to_list (gcs_objects w))).*2.

(** The names of the objects a load reads. *)
Definition source_names (o : GCSToBigQueryOperator) (w : world) : list string :=
  (filter (λ kv, matches_source o kv.1) (map_to_list (gcs_objects w))).*1.*2.

(** [skip_leading_rows] rows are dropped at the head of every file. *)
Definition load_rows (o : GCSToBigQueryOperator) (files : list csv) : list row :=
  concat (drop (skip_leading_rows o) <$> files).

(** The column names of the loaded table: the declared ones, or with
    [autodetect] those read off the first row of the data. *)
Definition load_schema (o : GCSToBigQueryOperator) (files : list csv) (old : option table)
  : list string :=
  match schema_fields o with
  | Some fs => fs.*1
  | None =>
      if autodetect o then default [] (head files ≫= head)
      else from_option schema [] old
  end.

(** The load job.  The destination is used as written and names a table;
    [WRITE_TRUNCATE] replaces what the table holds, [WRITE_APPEND] adds to
    it, [WRITE_EMPTY] requires it to be empty.  No matching object is a
    not-found error. *)
Definition load (o : GCSToBigQueryOperator) (w : world) : option world :=
  if decide (bucket o ∈ gcs_buckets w) then
    match source_files o w with
    | [] => None
    | files =>
        let name := destination_project_dataset_table o in
        let old := bq_tables w !! name in
        let new_rows := load_rows o files in
        let sch := load_schema o files old in
        if decide (write_disposition o = "WRITE_TRUNCATE") then
          Some (with_table name {| schema := sch; rows := new_rows |} w)
        else if decide (write_disposition o = "WRITE_APPEND") then
          Some (with_table name
                  {| schema := from_option schema sch old;
                     rows := from_option rows [] old ++ new_rows |} w)
        else if decide (write_disposition o = "WRITE_EMPTY") then
          match from_option rows [] old with
          | [] => Some (with_table name {| schema := sch; rows := new_rows |} w)
          | _ => None
          end
        else None
    end
  else None.

(** The one query shape the DAG issues, a count of all the rows of a
    table [ref], resolved in the connection's project.  Any
    other text, or a table that does not exist, is a query error. *)
Definition row_count (q : string) (w : world) : option nat :=
  ref ← Text.strip_prefix "SELECT COUNT(*) FROM " q;
  t ← bq_tables w !! (default_project dep +:+ "." +:+ ref);
  Some (length (rows t)).

(** The check fails when the first value of the first result row is
    falsy, that is when the count is [0]. *)
Definition check (o : BigQueryCheckOperator) (w : world) : option world :=
  match row_count (sql o) w with
  | Some (S _) => Some w
  | _ => None
  end.

Definition execute (c : context) (o : operator) (w : world) : option world :=
  match o with
  | DummyOperator => Some w
  | CreateBucket o => create_bucket o w
  | Python o => call (python_callable o) (render_kwargs c (op_kwargs o)) w
  | ListObjects o => _ ← list_objects o w; Some w
  | CreateDataset o => create_dataset o w
  | GCSToBigQuery o => load o w
  | BigQueryCheck o => check o w
  end.

(** *** The scheduler

    Every task has the default trigger rule: it is executed once all its
    direct upstream tasks have succeeded, and is otherwise marked
    [upstream_failed] without being executed. *)
Definition ready (d : DAG) (st : list (string * task_state)) (t : task) : bool :=
  forallb (λ u, bool_decide (state_of st u = Some success)) (upstream d (task_id t)).

Definition run_task (c : context) (d : DAG) (acc : list (string * task_state) * world)
    (t : task) : list (string * task_state) * world :=
  if ready d acc.1 t then
    match execute c (op t) acc.2 with
    | Some w' => (acc.1 ++ [(task_id t, success)], w')
    | None => (acc.1 ++ [(task_id t, failed)], acc.2)
    end
  else (acc.1 ++ [(task_id t, upstream_failed)], acc.2).

(** One DAG run: the tasks in the order of the task sequence. *)
Definition dag_run (c : context) (d : DAG) (w : world)
  : list (string * task_state) * world :=
  foldl (run_task c d) ([], w) (tasks d).

(** A run has succeeded when its tasks all have. *)
Definition run_succeeded (d : DAG) (st : list (string * task_state)) : bool :=
  forallb (λ t, bool_decide (state_of st (task_id t) = Some success)) (tasks d).

(** The task instance was executed (it is not merely marked). *)
Definition executed (st : list (string * task_state)) (t : task) : Prop :=
  state_of st (task_id t) = Some success ∨ state_of st (task_id t) = Some failed.

(** The runs of a schedule, one per logical date, each from the world the
    one before left. *)
Fixpoint scheduled_runs (cs : list context) (d : DAG) (w : world)
  : list (list (string * task_state) * world) :=
  match cs with
  | [] => []
  | c :: cs' =>
      let r := dag_run c d w in
      r :: scheduled_runs cs' d r.2
  end.

End Execution.

(** ** Partitions of a loaded table *)

Definition partition_field (o : GCSToBigQueryOperator) : option string :=
  Text.assoc "field" (time_partitioning o).

Definition column (t : table) (name : string) (r : row) : option string :=
  i ← Text.index_of name (schema t); r !! i.

(** The rows of [t] in the partition of date [d]. *)
Definition partition_rows (t : table) (field d : string) : list row :=
  filter (λ r, column t field r = Some d) (rows t).

(** The keyword arguments of the scraping task, rendered. *)
Definition script_kwargs (g : globals) (c : context) : list (string * string) :=
  render_kwargs c (op_kwargs (run_web_scrapping_script_op g)).

(** The number of rows of the table [name] in the partition of [d]. *)
Definition partition_count (w : world) (name field d : string) : nat :=
  from_option (λ t, length (partition_rows t field d)) 0 (bq_tables w !! name).

(** The task states of a run of the DAG in which the first [k] tasks of
    the sequence succeeded and the next one, if any, failed. *)
Definition marks (g : globals) (k : nat) : list (string * task_state) :=
  imap (λ i t, (task_id t,
                if decide (i < k) then success
                else if decide (i = k) then failed else upstream_failed))
       (task_sequence g).

(** ** A concrete deployment

    A small instance on which the definitions can be evaluated: the
    choices of an implementation for the first two pages of
    [books.toscrape.com], a website and a cloud project. *)

Module Sample.

Import Core.

Definition g : globals :=
  {| PROJECT_ID := "cayena-project";
     CAYENA_BUCKET := "cayena-bucket";
     BUCKET_LOCATION := "US";
     BQ_DATASET_NAME := "cayena";
     BQ_TABLE_NAME := "books" |}.

(** [split_on c s]: the pieces of [s] between the occurrences of [c]. *)
Fixpoint split_on (c : ascii) (s : string) : list string :=
  match s with
  | EmptyString => [""]
  | String a s' =>
      match split_on c s' with
      | [] => [""]
      | x :: l => if decide (a = c) then "" :: x :: l else String a x :: l
      end
  end.

Fixpoint digits (s : string) (acc : N) : option N :=
  match s with
  | EmptyString => Some acc
  | String a s' =>
      match Ascii.is_nat a with
      | Some d => digits s' (acc * 10 + N.of_nat d)%N
      | None => None
      end
  end.

Definition unsigned_price (s : string) : option Z :=
  match split_on "."%char s with
  | [units; cents] =>
      if decide (String.length cents = 2) then
        u ← digits units 0%N; c ← digits cents 0%N; Some (Z.of_N (u * 100 + c))
      else None
  | _ => None
  end.

Definition sample_parse_price (s : string) : option Z :=
  match Text.strip_prefix "-" s with
  | Some s' => Z.opp <$> unsigned_price s'
  | None => unsigned_price s
  end.

(** A page is a list of items separated by [;], an item five fields
    separated by [|]; the empty page has no readable structure. *)
Definition sample_item (s : string) : option RawRecord :=
  match split_on "|"%char s with
  | [t; p; a; r; u] =>
      Some {| raw_title := t; price_text := p; availability_text := a;
              rating_text := r; raw_source_url := u |}
  | _ => None
  end.

Definition sample_item_containers (page : string) : option (list (option RawRecord)) :=
  if decide (page = "") then None else Some (sample_item <$> split_on ";"%char page).

Global Instance choices : Choices :=
  {| page_url i := "https://books.toscrape.com/catalogue/page-" +:+ pretty i +:+ ".html";
     max_attempts := 3;
     item_containers := sample_item_containers;
     parse_price := sample_parse_price;
     availability_vocabulary := [("In stock", true); ("Out of stock", false)];
     rating_scale := [("Zero", 0); ("One", 1); ("Two", 2); ("Three", 3);
                      ("Four", 4); ("Five", 5); ("Six", 6)];
     object_stem := "books";
     digest s := pretty (String.length s) |}.

(** Two pages; the first answers at the second request only, the second
    holds an item without a price and a repetition of an item of the
    first. *)
Definition site : network := λ u k,
  if decide (u = "https://books.toscrape.com/catalogue/page-1.html") then
    match k with
    | 0 => TransientFailure
    | _ => Body "A Light in the Attic|51.77|In stock|Three|a-light-in-the-attic_1000;Tipping the Velvet|53.74|Out of stock|One|tipping-the-velvet_999"
    end
  else if decide (u = "https://books.toscrape.com/catalogue/page-2.html") then
    Body "Soumission|N/A|In stock|One|soumission_998;A Light in the Attic|51.77|In stock|Three|a-light-in-the-attic_1000;Sharp Objects|47.82|In stock|Four|sharp-objects_997"
  else NoMorePages.

(** A website with an empty catalog, and one that never answers. *)
Definition empty_site : network := λ _ _, NoMorePages.

Definition deployed (net : network) : deployment :=
  {| default_project := "cayena-project";
     bucket_exists_ok := true;
     dataset_exists_ok := true;
     web := net;
     page_budget := 50 |}.

(** The same project with provisioning operators that refuse a resource
    that exists. *)
Definition strict (net : network) : deployment :=
  {| default_project := "cayena-project";
     bucket_exists_ok := false;
     dataset_exists_ok := false;
     web := net;
     page_budget := 50 |}.

(** The same bucket with another project, dataset and table. *)
Definition g_staging : globals :=
  {| PROJECT_ID := "cayena-staging";
     CAYENA_BUCKET := "cayena-bucket";
     BUCKET_LOCATION := "US";
     BQ_DATASET_NAME := "cayena_staging";
     BQ_TABLE_NAME := "books_staging" |}.

Definition new_project : world :=
  {| gcs_buckets := ∅; gcs_objects := ∅; bq_datasets := ∅; bq_tables := ∅ |}.

Definition may_5 : context :=
  {| ds := "2022-05-05"; run_id := "scheduled__2022-05-05T00:00:00+00:00";
     started_at := "2022-05-06T00:00:03+00:00" |}.

Definition may_6 : context :=
  {| ds := "2022-05-06"; run_id := "scheduled__2022-05-06T00:00:00+00:00";
     started_at := "2022-05-07T00:00:02+00:00" |}.


End Sample.

(** * Properties *)

(** ** Text *)


Lemma string_app_cons (a : ascii) (s t : string) : String a s +:+ t = String a (s +:+ t).
Proof. reflexivity. Qed.

Lemma string_app_assoc (s t u : string) : (s +:+ t) +:+ u = s +:+ t +:+ u.
Proof.
  induction s as [|a s IH]; [reflexivity|].
  rewrite !string_app_cons. by rewrite IH.
Qed.

Lemma strip_prefix_app (p s : string) : Text.strip_prefix p (p +:+ s) = Some s.
Proof.
  induction p as [|a p IH]; [reflexivity|].
  rewrite string_app_cons. simpl. by rewrite decide_True.
Qed.

Lemma starts_with_app (p s : string) : Text.starts_with p (p +:+ s) = true.
Proof. unfold Text.starts_with. by rewrite strip_prefix_app. Qed.

Lemma glob_star_here (p s : string) :
  Text.glob_match p s = true → Text.glob_match (String "*" p) s = true.
Proof.
  intros E. simpl. destruct s; simpl; rewrite E; reflexivity.
Qed.

Lemma glob_star_skip (p s : string) (a : ascii) :
  Text.glob_match (String "*" p) s = true →
  Text.glob_match (String "*" p) (String a s) = true.
Proof.
  simpl. intros E. rewrite E. apply orb_true_r.
Qed.

Lemma glob_star_suffix (p s t : string) :
  Text.glob_match p t = true → Text.glob_match (String "*" p) (s +:+ t) = true.
Proof.
  intros E. induction s as [|a s IH].
  - by apply glob_star_here.
  - rewrite string_app_cons. by apply glob_star_skip.
Qed.


(** ** The scheduler on the task sequence *)

Section Scheduler.

Context `{Core.Choices}.

Variable dep : deployment.

Lemma run_task_ready c d st w t :
  ready d st t = true →
  run_task dep c d (st, w) t =
    match execute dep c (op t) w with
    | Some w' => (st ++ [(task_id t, success)], w')
    | None => (st ++ [(task_id t, failed)], w)
    end.
Proof. intros E. unfold run_task. simpl. by rewrite E. Qed.

Lemma run_task_blocked c d st w t :
  ready d st t = false →
  run_task dep c d (st, w) t = (st ++ [(task_id t, upstream_failed)], w).
Proof. intros E. unfold run_task. simpl. by rewrite E. Qed.

Lemma foldl_step {A B} (f : A → B → A) (a : A) (x : B) (l : list B) :
  foldl f a (x :: l) = foldl f (f a x) l.
Proof. reflexivity. Qed.

Ltac sched :=
  rewrite foldl_step;
  first
    [ rewrite run_task_ready by (vm_compute; reflexivity)
    | rewrite run_task_blocked by (vm_compute; reflexivity) ].

Ltac settle :=
  repeat sched; apply (f_equal2 pair); [vm_compute; reflexivity | reflexivity].

(** A run of the DAG task by task: it stops at the first task that fails,
    and the tasks after it are not executed. *)
Lemma dag_run_unfold g c w :
  dag_run dep c (dag g) w =
    match create_bucket dep (create_gcs_cayena_bucket_op g) w with
    | None => (marks g 1, w)
    | Some w1 =>
      match call dep etl_web_scrapping (script_kwargs g c) w1 with
      | None => (marks g 2, w1)
      | Some w2 =>
        match list_objects (list_files_from_cayena_bucket_books_daily_data_op g) w2 with
        | None => (marks g 3, w2)
        | Some _ =>
          match create_dataset dep (bq_create_dataset_cayena_op g) w2 with
          | None => (marks g 4, w2)
          | Some w3 =>
            match load (ingest_books_into_table_cayene_op g) w3 with
            | None => (marks g 5, w3)
            | Some w4 =>
              match check dep (check_bq_cayena_table_count_op g) w4 with
              | None => (marks g 6, w4)
              | Some w5 => (marks g 8, w5)
              end
            end
          end
        end
      end
    end.
Proof.
  unfold dag_run.
  change (tasks (dag g)) with
    [start; create_gcs_cayena_bucket g; run_web_scrapping_script g;
     list_files_from_cayena_bucket_books_daily_data g; bq_create_dataset_cayena g;
     ingest_books_into_table_cayene g; check_bq_cayena_table_count g; end_].
  sched. change (execute dep c (op start) w) with (Some w). cbv iota.
  sched.
  change (execute dep c (op (create_gcs_cayena_bucket g)) w)
    with (create_bucket dep (create_gcs_cayena_bucket_op g) w).
  destruct (create_bucket dep (create_gcs_cayena_bucket_op g) w) as [w1|]; [|settle].
  sched.
  change (execute dep c (op (run_web_scrapping_script g)) w1)
    with (call dep etl_web_scrapping (script_kwargs g c) w1).
  destruct (call dep etl_web_scrapping (script_kwargs g c) w1) as [w2|]; [|settle].
  sched.
  change (execute dep c (op (list_files_from_cayena_bucket_books_daily_data g)) w2)
    with (_ ← list_objects (list_files_from_cayena_bucket_books_daily_data_op g) w2; Some w2).
  destruct (list_objects (list_files_from_cayena_bucket_books_daily_data_op g) w2) as [l|];
    cbv beta iota delta [mbind option_bind]; [|settle].
  sched.
  change (execute dep c (op (bq_create_dataset_cayena g)) w2)
    with (create_dataset dep (bq_create_dataset_cayena_op g) w2).
  destruct (create_dataset dep (bq_create_dataset_cayena_op g) w2) as [w3|]; [|settle].
  sched.
  change (execute dep c (op (ingest_books_into_table_cayene g)) w3)
    with (load (ingest_books_into_table_cayene_op g) w3).
  destruct (load (ingest_books_into_table_cayene_op g) w3) as [w4|]; [|settle].
  sched.
  change (execute dep c (op (check_bq_cayena_table_count g)) w4)
    with (check dep (check_bq_cayena_table_count_op g) w4).
  destruct (check dep (check_bq_cayena_table_count_op g) w4) as [w5|]; [|settle].
  sched. change (execute dep c (op end_) w5) with (Some w5). cbv iota.
  apply (f_equal2 pair); [vm_compute; reflexivity | reflexivity].
Qed.

End Scheduler.

(** ** The scraping routine *)

Section CoreFacts.

Import Core.

Context `{Choices}.






(** What a finished run has done. *)
Lemma run_done net fuel d target w a s w' :
  run net fuel d target w = Some (Done a s, w') →
  ∃ st,
    traverse net d fuel 1 no_progress = Some (inr st) ∧
    target ∈ gcs_buckets w ∧
    a = {| art_bucket := target; path := artifact_path d; content := write (kept st);
           checksum := digest (render_csv (write (kept st))) |} ∧
    s = counters st ∧
    w' = with_object target (artifact_path d) (write (kept st)) w.
Proof.
  unfold run. intros E.
  destruct (traverse net d fuel 1 no_progress) as [[e|st]|]; [discriminate| |discriminate].
  exists st. unfold publish, make_batch in E. simpl in E.
  case_decide; simplify_eq. done.
Qed.


End CoreFacts.

Lemma glob_literal (a : ascii) (p s : string) :
  a ≠ "*"%char → Text.glob_match (String a p) (String a s) = Text.glob_match p s.
Proof. intros Ha. simpl. rewrite decide_False by done. by rewrite decide_True. Qed.

(** The object name of a run matches the pattern the load task reads. *)
Lemma artifact_path_matches `{Core.Choices} (d : string) :
  Text.glob_match "books-daily-data/*.csv" (Core.artifact_path d) = true.
Proof.
  assert (Core.artifact_path d
          = "books-daily-data/" +:+ (d +:+ "/" +:+ Core.object_stem) +:+ ".csv") as ->.
  { unfold Core.artifact_path, Core.path_components, Core.fixed_prefix. simpl Text.join.
    rewrite !string_app_assoc. reflexivity. }
  rewrite !string_app_cons. do 17 (rewrite glob_literal by done).
  change ("" +:+ ?x) with x.
  by apply glob_star_suffix.
Qed.

(** ** The published artifact *)

(** C1.  The artifact of a finished run is one object, stored in the
    target bucket under [books-daily-data/<ingestion_date>/<name>.csv]:
    the ingestion date is a component of its path, the path lies under
    the prefix the DAG lists and matches the pattern the DAG loads, and
    the run changes the bucket at that name only. *)
Theorem artifact_namespaced_by_date `{Core.Choices} (g : globals) (net : Core.network)
    (fuel : nat) (d target : string) (w w' : world) (a : Core.Artifact) (s : Core.summary) :
  Core.run net fuel d target w = Some (Core.Done a s, w') →
  Core.uri a = target +:+ "/" +:+ "books-daily-data" +:+ "/" +:+ d +:+ "/"
               +:+ Core.object_stem +:+ ".csv"
  ∧ Core.path a = Text.join "/" (Core.path_components d)
  ∧ Core.path_components d !! 1 = Some d
  ∧ gcs_objects w' = <[(target, Core.path a) := Core.content a]> (gcs_objects w)
  ∧ Text.starts_with (prefix (list_files_from_cayena_bucket_books_daily_data_op g))
                     (Core.path a) = true
  ∧ Forall (λ p, Text.glob_match p (Core.path a) = true)
           (source_objects (ingest_books_into_table_cayene_op g)).
Proof.
  intros E. apply run_done in E as (st & _ & _ & -> & _ & ->).
  unfold Core.uri. cbn [Core.art_bucket Core.path Core.content].
  split_and!; try reflexivity.
  constructor; [|constructor]. apply artifact_path_matches.
Qed.

Lemma artifact_namespaced_by_date_witness :
  ∃ a s w',
    Core.run Sample.site 50 "2022-05-05" "cayena-bucket"
             (with_bucket "cayena-bucket" Sample.new_project) = Some (Core.Done a s, w')
    ∧ Core.uri a = "cayena-bucket/books-daily-data/2022-05-05/books.csv"
    ∧ Core.path_components "2022-05-05" !! 1 = Some "2022-05-05".
Proof.
  eexists _, _, _.
  match goal with |- ?E ∧ _ => assert E as Hrun by (vm_compute; reflexivity) end.
  split; [exact Hrun|].
  destruct (artifact_namespaced_by_date Sample.g _ _ _ _ _ _ _ _ Hrun) as (P1 & _ & P3 & _).
  split; [exact P1 | exact P3].
Defined.







(** ** Determinism and row order *)

Section Order.

Import Core.

Context `{Choices}.




End Order.



(** ** Runs of the DAG *)

Section Runs.

Context `{Core.Choices}.

Variable dep : deployment.

(** Evaluation of the task states of a run that stopped at a known task. *)
Ltac marks_eval :=
  unfold executed in *;
  repeat match goal with
  | |- context [state_of (marks ?g ?k) ?id] =>
      let v := eval vm_compute in (state_of (marks g k) id) in
      let E := fresh in
      assert (state_of (marks g k) id = v) as E by (vm_compute; reflexivity);
      rewrite E in *; clear E
  | _ : context [state_of (marks ?g ?k) ?id] |- _ =>
      let v := eval vm_compute in (state_of (marks g k) id) in
      let E := fresh in
      assert (state_of (marks g k) id = v) as E by (vm_compute; reflexivity);
      rewrite E in *; clear E
  | |- context [run_succeeded (dag ?g) (marks ?g ?k)] =>
      let v := eval vm_compute in (run_succeeded (dag g) (marks g k)) in
      let E := fresh in
      assert (run_succeeded (dag g) (marks g k) = v) as E by (vm_compute; reflexivity);
      rewrite E in *; clear E
  | _ : context [run_succeeded (dag ?g) (marks ?g ?k)] |- _ =>
      let v := eval vm_compute in (run_succeeded (dag g) (marks g k)) in
      let E := fresh in
      assert (run_succeeded (dag g) (marks g k) = v) as E by (vm_compute; reflexivity);
      rewrite E in *; clear E
  end.




(** The load of the DAG: the table is replaced by the rows of all the
    objects of the bucket that match [books-daily-data/*.csv], each
    without its first row, under the column names of the first row read. *)
Lemma load_effect g w w4 :
  load (ingest_books_into_table_cayene_op g) w = Some w4 →
  source_files (ingest_books_into_table_cayene_op g) w ≠ []
  ∧ w4 = with_table
           (PROJECT_ID g +:+ "." +:+ BQ_DATASET_NAME g +:+ "." +:+ BQ_TABLE_NAME g)
           {| schema := default [] (head (source_files (ingest_books_into_table_cayene_op g) w)
                                     ≫= head);
              rows := concat (drop 1 <$> source_files (ingest_books_into_table_cayene_op g) w) |}
           w.
Proof.
  unfold load. intros E. case_decide; [|discriminate].
  destruct (source_files (ingest_books_into_table_cayene_op g) w) as [|f fs] eqn:Hf;
    [discriminate|].
  cbn [write_disposition ingest_books_into_table_cayene_op] in E.
  rewrite decide_True in E by done. simplify_eq. done.
Qed.

Lemma check_effect o w w5 : check dep o w = Some w5 → w5 = w.
Proof. unfold check. intros E. repeat case_match; by simplify_eq. Qed.


(** The order in which the task instances of a run are executed. *)
Lemma dag_run_order g c w :
  executed (dag_run dep c (dag g) w).1 (create_gcs_cayena_bucket g)
  ∧ (executed (dag_run dep c (dag g) w).1 (run_web_scrapping_script g) →
       state_of (dag_run dep c (dag g) w).1 (task_id (create_gcs_cayena_bucket g))
         = Some success)
  ∧ (state_of (dag_run dep c (dag g) w).1
       (task_id (list_files_from_cayena_bucket_books_daily_data g)) = Some success →
       executed (dag_run dep c (dag g) w).1 (bq_create_dataset_cayena g))
  ∧ (executed (dag_run dep c (dag g) w).1 (ingest_books_into_table_cayene g) →
       state_of (dag_run dep c (dag g) w).1 (task_id (bq_create_dataset_cayena g))
         = Some success)
  ∧ (executed (dag_run dep c (dag g) w).1 (check_bq_cayena_table_count g) →
       state_of (dag_run dep c (dag g) w).1 (task_id (ingest_books_into_table_cayene g))
         = Some success).
Proof.
  rewrite dag_run_unfold.
  repeat case_match; cbn [fst]; marks_eval; naive_solver.
Qed.




End Runs.

(** ** Provisioning *)



(** With provisioning operators that refuse a resource that exists, the
    run that follows a successful run stops at the bucket creation. *)
Example second_run_needs_tolerance :
  (scheduled_runs (Sample.strict Sample.site) [Sample.may_5; Sample.may_6]
                  (dag Sample.g) Sample.new_project).*1
  = [marks Sample.g 8; marks Sample.g 1].
Proof. vm_compute. reflexivity. Qed.

(** ** The load *)

(** C10.  The load task declares no schema and no task of the DAG does:
    [autodetect] is on, the column names of the table are those read off
    the first row of the data, whatever they are, and exactly one leading
    row of every matched object is skipped. *)
Theorem load_autodetects_schema (g : globals) :
  autodetect (ingest_books_into_table_cayene_op g) = true
  ∧ schema_fields (ingest_books_into_table_cayene_op g) = None
  ∧ schema_object (ingest_books_into_table_cayene_op g) = None
  ∧ skip_leading_rows (ingest_books_into_table_cayene_op g) = 1
  ∧ (∀ t o, t ∈ tasks (dag g) → op t = GCSToBigQuery o →
       schema_fields o = None ∧ schema_object o = None)
  ∧ (∀ files, load_rows (ingest_books_into_table_cayene_op g) files
              = concat (drop 1 <$> files))
  ∧ (∀ files old, load_schema (ingest_books_into_table_cayene_op g) files old
                  = default [] (head files ≫= head))
  ∧ (∀ w w', load (ingest_books_into_table_cayene_op g) w = Some w' →
       bq_tables w' !! destination_project_dataset_table (ingest_books_into_table_cayene_op g)
       = Some {| schema := default [] (head (source_files (ingest_books_into_table_cayene_op g) w)
                                         ≫= head);
                 rows := concat (drop 1 <$> source_files (ingest_books_into_table_cayene_op g) w)
              |}).
Proof.
  split_and!; try reflexivity.
  - intros t o Ht Ho. cbn [tasks dag] in Ht. unfold task_sequence in Ht.
    repeat (apply elem_of_cons in Ht as [->|Ht]); try discriminate Ho.
    + cbn [op ingest_books_into_table_cayene] in Ho. by simplify_eq.
    + by apply elem_of_nil in Ht.
  - intros w w' E. apply load_effect in E as (_ & ->).
    cbn [with_table bq_tables destination_project_dataset_table
         ingest_books_into_table_cayene_op].
    apply lookup_insert_eq.
Qed.

(** ** The verification step *)

Section Verification.

Context `{Core.Choices}.

Variable dep : deployment.

(** The query of the DAG counts the rows of the whole table. *)
Lemma row_count_whole_table g w :
  row_count dep (sql (check_bq_cayena_table_count_op g)) w
  = (λ t, length (rows t))
      <$> bq_tables w !! (default_project dep +:+ "." +:+ BQ_DATASET_NAME g
                          +:+ "." +:+ BQ_TABLE_NAME g).
Proof.
  unfold row_count. cbn [sql check_bq_cayena_table_count_op].
  rewrite strip_prefix_app. cbn [mbind option_bind].
  by destruct (bq_tables w !! _).
Qed.

Lemma check_fails o w :
  check dep o w = None ↔
  row_count dep (sql o) w = None ∨ row_count dep (sql o) w = Some 0.
Proof.
  unfold check. destruct (row_count dep (sql o) w) as [[|n]|]; naive_solver.
Qed.

End Verification.

(** C3, as stated, fails: after the run of May 5th, a run for May 6th
    that finds an empty catalog loads no row for its own date, yet the
    check passes on the rows of May 5th and the run succeeds. *)
Lemma check_passes_on_empty_partition :
  ¬ (run_succeeded (dag Sample.g)
       (dag_run (Sample.deployed Sample.empty_site) Sample.may_6 (dag Sample.g)
          (dag_run (Sample.deployed Sample.site) Sample.may_5 (dag Sample.g)
             Sample.new_project).2).1 = false
     ↔ partition_count
         (dag_run (Sample.deployed Sample.empty_site) Sample.may_6 (dag Sample.g)
            (dag_run (Sample.deployed Sample.site) Sample.may_5 (dag Sample.g)
               Sample.new_project).2).2
         "cayena-project.cayena.books" "ingestion_date" (ds Sample.may_6) = 0).
Proof.
  intros [_ X].
  assert (partition_count
            (dag_run (Sample.deployed Sample.empty_site) Sample.may_6 (dag Sample.g)
               (dag_run (Sample.deployed Sample.site) Sample.may_5 (dag Sample.g)
                  Sample.new_project).2).2
            "cayena-project.cayena.books" "ingestion_date" (ds Sample.may_6) = 0) as E
    by (vm_compute; reflexivity).
  apply X in E. vm_compute in E. discriminate E.
Qed.

(** C3, amended.  The check task is executed only after the load of the
    same run has succeeded.  Its query counts the rows of the whole table
    [dataset.table], without any condition on the ingestion date, and
    once the load has succeeded the run fails exactly when that count is
    zero or the query itself fails. *)
Theorem check_counts_whole_table `{Core.Choices} (dep : deployment) (g : globals)
    (c : context) (w : world) :
  sql (check_bq_cayena_table_count_op g)
    = "SELECT COUNT(*) FROM " +:+ BQ_DATASET_NAME g +:+ "." +:+ BQ_TABLE_NAME g
  ∧ (∀ w0, row_count dep (sql (check_bq_cayena_table_count_op g)) w0
           = (λ t, length (rows t))
               <$> bq_tables w0 !! (default_project dep +:+ "." +:+ BQ_DATASET_NAME g
                                    +:+ "." +:+ BQ_TABLE_NAME g))
  ∧ (executed (dag_run dep c (dag g) w).1 (check_bq_cayena_table_count g) →
       state_of (dag_run dep c (dag g) w).1 (task_id (ingest_books_into_table_cayene g))
         = Some success)
  ∧ (state_of (dag_run dep c (dag g) w).1 (task_id (ingest_books_into_table_cayene g))
       = Some success →
       (run_succeeded (dag g) (dag_run dep c (dag g) w).1 = false
        ↔ row_count dep (sql (check_bq_cayena_table_count_op g)) (dag_run dep c (dag g) w).2
            = None
          ∨ row_count dep (sql (check_bq_cayena_table_count_op g)) (dag_run dep c (dag g) w).2
            = Some 0)).
Proof.
  split_and!.
  - reflexivity.
  - intros w0. apply row_count_whole_table.
  - apply dag_run_order.
  - rewrite dag_run_unfold.
    destruct (create_bucket dep _ w) as [w1|]; [|cbn [fst]; by vm_compute].
    destruct (call dep _ _ w1) as [w2|]; [|cbn [fst]; by vm_compute].
    destruct (list_objects _ w2) as [l|]; [|cbn [fst]; by vm_compute].
    destruct (create_dataset dep _ w2) as [w3|]; [|cbn [fst]; by vm_compute].
    destruct (load _ w3) as [w4|]; [|cbn [fst]; by vm_compute].
    destruct (check dep _ w4) as [w5|] eqn:E; cbn [fst snd]; intros _.
    + pose proof (check_effect dep _ _ _ E) as ->.
      assert (run_succeeded (dag g) (marks g 8) = true) as -> by (vm_compute; reflexivity).
      split; [done|]. intros X. apply check_fails in X. congruence.
    + assert (run_succeeded (dag g) (marks g 6) = false) as -> by (vm_compute; reflexivity).
      split; [|done]. intros _. by apply check_fails.
Qed.

Lemma check_counts_whole_table_witness :
  state_of (dag_run (Sample.deployed Sample.empty_site) Sample.may_6 (dag Sample.g)
              Sample.new_project).1
           (task_id (ingest_books_into_table_cayene Sample.g)) = Some success
  ∧ run_succeeded (dag Sample.g)
      (dag_run (Sample.deployed Sample.empty_site) Sample.may_6 (dag Sample.g)
         Sample.new_project).1 = false
  ∧ row_count (Sample.deployed Sample.empty_site)
      (sql (check_bq_cayena_table_count_op Sample.g))
      (dag_run (Sample.deployed Sample.empty_site) Sample.may_6 (dag Sample.g)
         Sample.new_project).2 = Some 0.
Proof.
  assert (state_of (dag_run (Sample.deployed Sample.empty_site) Sample.may_6 (dag Sample.g)
                      Sample.new_project).1
                   (task_id (ingest_books_into_table_cayene Sample.g)) = Some success) as E
    by (vm_compute; reflexivity).
  split; [exact E|].
  assert (row_count (Sample.deployed Sample.empty_site)
            (sql (check_bq_cayena_table_count_op Sample.g))
            (dag_run (Sample.deployed Sample.empty_site) Sample.may_6 (dag Sample.g)
               Sample.new_project).2 = Some 0) as Z by (vm_compute; reflexivity).
  split; [|exact Z].
  destruct (check_counts_whole_table (Sample.deployed Sample.empty_site) Sample.g
              Sample.may_6 Sample.new_project) as (_ & _ & _ & P).
  apply (P E). right. exact Z.
Defined.

(** ** Running twice for the same date *)

Lemma stopped_run_failed (g : globals) (k : nat) :
  k < 8 → run_succeeded (dag g) (marks g k) = false.
Proof.
  intros Hk. do 8 (destruct k as [|k]; [vm_compute; reflexivity|]). lia.
Qed.

Section Rerun.

Context `{Core.Choices}.

Variable dep : deployment.






End Rerun.




(** ** Configuration *)





(** * Further properties of the DAG *)

(** ** The imported variables *)

(** X1.  The module loads exactly when the five variables are set: one
    missing key aborts it, and a store in which the five keys are set
    gives back the values it holds, whatever they are. *)
Theorem variables_required (store : gmap string string) :
  (import_variables store = None ↔ ∃ k, k ∈ variable_keys ∧ store !! k = None)
  ∧ (∀ g, import_variables (variables_of g) = Some g)
  ∧ (∀ g k v, k ∉ variable_keys →
       import_variables (<[k := v]> (variables_of g)) = Some g).
Proof.
  split_and!.
  - unfold import_variables, Variable_get, variable_keys. split.
    + intros E.
      destruct (store !! "cayena_project_id") as [p|] eqn:E1;
        [|exists "cayena_project_id"; split; [set_solver|done]].
      destruct (store !! "cayena_bucket") as [b|] eqn:E2;
        [|exists "cayena_bucket"; split; [set_solver|done]].
      destruct (store !! "cayena_bucket_location") as [l|] eqn:E3;
        [|exists "cayena_bucket_location"; split; [set_solver|done]].
      destruct (store !! "cayena_bq_dataset_name") as [d|] eqn:E4;
        [|exists "cayena_bq_dataset_name"; split; [set_solver|done]].
      destruct (store !! "cayena_bq_table_name") as [t|] eqn:E5;
        [|exists "cayena_bq_table_name"; split; [set_solver|done]].
      discriminate E.
    + intros (k & Hk & E).
      destruct (store !! "cayena_project_id") as [p|] eqn:E1; [|done].
      destruct (store !! "cayena_bucket") as [b|] eqn:E2; [|done].
      destruct (store !! "cayena_bucket_location") as [l|] eqn:E3; [|done].
      destruct (store !! "cayena_bq_dataset_name") as [d|] eqn:E4; [|done].
      destruct (store !! "cayena_bq_table_name") as [t|] eqn:E5; [|done].
      exfalso.
      repeat (apply elem_of_cons in Hk as [->|Hk]); try congruence.
      by apply elem_of_nil in Hk.
  - intros [p b l d t]. unfold import_variables, Variable_get, variables_of.
    cbn [PROJECT_ID CAYENA_BUCKET BUCKET_LOCATION BQ_DATASET_NAME BQ_TABLE_NAME].
    by simplify_map_eq.
  - intros [p b l d t] k v Hk. unfold import_variables, Variable_get, variables_of.
    cbn [PROJECT_ID CAYENA_BUCKET BUCKET_LOCATION BQ_DATASET_NAME BQ_TABLE_NAME].
    unfold variable_keys in Hk.
    repeat (apply not_elem_of_cons in Hk as [? Hk]).
    by simplify_map_eq.
Qed.

(** ** The task sequence *)

Lemma chain_cons (a b : task) (l : list task) :
  chain (a :: b :: l) = (task_id a, task_id b) :: chain (b :: l).
Proof. reflexivity. Qed.

(** No edge of a chain points at a task that is not the successor of
    another. *)
Lemma chain_no_edge (l : list task) (x : string) :
  x ∉ tail (task_id <$> l) → filter (λ e, e.2 = x) (chain l) = [].
Proof.
  induction l as [|a [|b l] IH]; intros Hx; [done|done|].
  rewrite chain_cons.
  cbn [fmap list_fmap tail] in Hx. apply not_elem_of_cons in Hx as [Hb Hx].
  rewrite filter_cons_False by (cbn [snd]; congruence).
  apply IH. cbn [fmap list_fmap tail]. exact Hx.
Qed.

Lemma chain_edge (l : list task) (i : nat) (t : task) :
  NoDup (task_id <$> l) →
  l !! S i = Some t →
  ∃ u, l !! i = Some u
       ∧ filter (λ e, e.2 = task_id t) (chain l) = [(task_id u, task_id t)].
Proof.
  revert i. induction l as [|a [|b l] IH]; intros i Hnd Ht; [done|done|].
  rewrite chain_cons.
  apply NoDup_cons in Hnd as [Ha Hnd].
  destruct i as [|i].
  - cbn in Ht. simplify_eq. exists a. split; [done|].
    rewrite filter_cons_True by done. f_equal.
    apply chain_no_edge. cbn [fmap list_fmap tail].
    by apply NoDup_cons in Hnd as [? _].
  - destruct (IH i Hnd) as (u & Hu & E); [exact Ht|].
    exists u. split; [exact Hu|].
    rewrite filter_cons_False; [exact E|].
    cbn [snd]. intros Heq.
    apply NoDup_cons in Hnd as [Hb _]. apply Hb.
    rewrite Heq. apply list_elem_of_fmap_2. by apply (list_elem_of_lookup_2 _ i).
Qed.

(** X2.  In a DAG whose edges are those of one chain [t0 >> t1 >> ...]
    of tasks with distinct ids, the first task has no upstream task and
    every other task has exactly one, the task written before it. *)
Theorem chain_upstream (d : DAG) (i : nat) (t : task) :
  NoDup (task_id <$> tasks d) →
  edges d = chain (tasks d) →
  tasks d !! i = Some t →
  match i with
  | 0 => upstream d (task_id t) = []
  | S j => ∃ u, tasks d !! j = Some u ∧ upstream d (task_id t) = [task_id u]
  end.
Proof.
  intros Hnd He Ht. unfold upstream. rewrite He.
  destruct i as [|j].
  - rewrite chain_no_edge; [done|].
    destruct (tasks d) as [|a l]; [done|].
    cbn in Ht. simplify_eq. cbn [fmap list_fmap tail].
    by apply NoDup_cons in Hnd as [? _].
  - destruct (chain_edge (tasks d) j t Hnd Ht) as (u & Hu & ->).
    by exists u.
Qed.

Lemma chain_upstream_witness :
  NoDup (task_id <$> tasks (dag Sample.g))
  ∧ upstream (dag Sample.g) "ingest_books_into_table_cayene" = ["bq_create_dataset_cayena"]
  ∧ upstream (dag Sample.g) "start" = [].
Proof.
  assert (NoDup (task_id <$> tasks (dag Sample.g))) as Hnd.
  { compute_done. }
  split; [exact Hnd|]. split.
  - destruct (chain_upstream (dag Sample.g) 5 (ingest_books_into_table_cayene Sample.g)
                Hnd eq_refl eq_refl) as (u & Hu & E).
    cbn in Hu. simplify_eq. exact E.
  - exact (chain_upstream (dag Sample.g) 0 start Hnd eq_refl eq_refl).
Defined.

(** ** The shape of a run *)

(** The states [marks g k] assigns. *)
Lemma marks_state (g : globals) (k i : nat) (t : task) :
  task_sequence g !! i = Some t →
  state_of (marks g k) (task_id t)
  = Some (if decide (i < k) then success
          else if decide (i = k) then failed else upstream_failed).
Proof.
  intros Ht. unfold task_sequence in Ht.
  do 8 (destruct i as [|i]; [cbn in Ht; simplify_eq; reflexivity|]).
  done.
Qed.

(** X3.  A run of the DAG is fail-stop: the tasks succeed in the order of
    the task sequence up to the first one that fails, that one is marked
    failed, and every task after it is marked [upstream_failed] without
    being executed.  The two dummy tasks never fail. *)
Theorem run_is_fail_stop `{Core.Choices} (dep : deployment) (g : globals) (c : context)
    (w : world) :
  ∃ k, k ∈ [1; 2; 3; 4; 5; 6; 8]
       ∧ (dag_run dep c (dag g) w).1
         = imap (λ i t, (task_id t,
                         if decide (i < k) then success
                         else if decide (i = k) then failed else upstream_failed))
                (tasks (dag g))
       ∧ (∀ i t, tasks (dag g) !! i = Some t →
            state_of (dag_run dep c (dag g) w).1 (task_id t)
            = Some (if decide (i < k) then success
                    else if decide (i = k) then failed else upstream_failed))
       ∧ (run_succeeded (dag g) (dag_run dep c (dag g) w).1 = true ↔ k = 8).
Proof.
  rewrite dag_run_unfold.
  assert (∀ (k : nat) (w' : world), k ∈ [1; 2; 3; 4; 5; 6; 8] →
            ∃ k0, k0 ∈ [1; 2; 3; 4; 5; 6; 8]
              ∧ (marks g k, w').1
                = imap (λ i t, (task_id t,
                                if decide (i < k0) then success
                                else if decide (i = k0) then failed else upstream_failed))
                       (tasks (dag g))
              ∧ (∀ i t, tasks (dag g) !! i = Some t →
                   state_of (marks g k, w').1 (task_id t)
                   = Some (if decide (i < k0) then success
                           else if decide (i = k0) then failed else upstream_failed))
              ∧ (run_succeeded (dag g) (marks g k, w').1 = true ↔ k0 = 8)) as X.
  { intros k w' Hk. exists k. split; [exact Hk|]. split; [reflexivity|]. split.
    - intros i t Ht. by apply marks_state.
    - cbn [fst]. split.
      + intros E. destruct (decide (k < 8)) as [Hlt|Hge].
        * by rewrite stopped_run_failed in E.
        * repeat (apply elem_of_cons in Hk as [->|Hk]); try lia.
          by apply elem_of_nil in Hk.
      + intros ->. vm_compute. reflexivity. }
  repeat case_match; apply X; set_solver.
Qed.

(** ** The arguments of the scraping routine *)




(** ** Listing and loading *)

Lemma glob_literal_inv (a : ascii) (p s : string) :
  a ≠ "*"%char →
  Text.glob_match (String a p) s = true →
  ∃ s', s = String a s' ∧ Text.glob_match p s' = true.
Proof.
  intros Ha. cbn [Text.glob_match]. rewrite decide_False by done.
  destruct s as [|b s]; [done|]. case_decide as Hab; [|done].
  subst b. intros E. by exists s.
Qed.

(** What matches the pattern of the load lies under the prefix of the
    listing. *)
Lemma load_pattern_under_prefix (n : string) :
  Text.glob_match "books-daily-data/*.csv" n = true →
  Text.starts_with "books-daily-data/" n = true.
Proof.
  intros E.
  do 17 (apply glob_literal_inv in E as (? & -> & E); [|done]).
  reflexivity.
Qed.

Lemma matches_source_ingest (g : globals) (k : string * string) :
  matches_source (ingest_books_into_table_cayene_op g) k
  = bool_decide (k.1 = CAYENA_BUCKET g) && Text.glob_match "books-daily-data/*.csv" k.2.
Proof.
  unfold matches_source.
  change (source_objects (ingest_books_into_table_cayene_op g))
    with ["books-daily-data/*.csv"].
  change (bucket (ingest_books_into_table_cayene_op g)) with (CAYENA_BUCKET g).
  cbn [existsb]. by rewrite orb_false_r.
Qed.

(** X5.  Every object the load task reads is one the listing task
    returns for the same state of the bucket: the pattern
    [books-daily-data/*.csv] selects among the names under the prefix
    [books-daily-data/] of the same bucket.  A load that succeeds has
    therefore been preceded by a listing that is not empty. *)
Theorem loaded_objects_are_listed (g : globals) (w : world) (l : list string) :
  list_objects (list_files_from_cayena_bucket_books_daily_data_op g) w = Some l →
  (∀ n, n ∈ source_names (ingest_books_into_table_cayene_op g) w → n ∈ l)
  ∧ length (source_files (ingest_books_into_table_cayene_op g) w)
    = length (source_names (ingest_books_into_table_cayene_op g) w)
  ∧ (∀ w', load (ingest_books_into_table_cayene_op g) w = Some w' → l ≠ []).
Proof.
  unfold list_objects. case_decide as Hb; [|done]. intros E. simplify_eq.
  assert (∀ n, n ∈ source_names (ingest_books_into_table_cayene_op g) w →
            n ∈ filter (λ n, Text.starts_with
                               (prefix (list_files_from_cayena_bucket_books_daily_data_op g)) n)
                  (filter (λ k, k.1 = lst_bucket
                                        (list_files_from_cayena_bucket_books_daily_data_op g))
                          (map_to_list (gcs_objects w)).*1).*2) as Hsub.
  { intros n Hn. unfold source_names in Hn.
    apply list_elem_of_fmap in Hn as (k & -> & Hk).
    apply list_elem_of_fmap in Hk as (kv & -> & Hkv).
    apply list_elem_of_filter in Hkv as [Hm Hkv].
    rewrite matches_source_ingest in Hm.
    apply andb_prop_elim in Hm as [Hm1 Hm2].
    apply bool_decide_unpack in Hm1.
    apply Is_true_eq_true in Hm2.
    apply list_elem_of_filter. split.
    - cbn [prefix list_files_from_cayena_bucket_books_daily_data_op].
      apply Is_true_eq_left. by apply load_pattern_under_prefix.
    - apply list_elem_of_fmap_2. apply list_elem_of_filter. split.
      + exact Hm1.
      + by apply list_elem_of_fmap_2. }
  split; [exact Hsub|]. split.
  - unfold source_files, source_names. by rewrite !length_fmap.
  - intros w' Hload. apply load_effect in Hload as [Hne _].
    unfold source_files in Hne. intros Hl.
    destruct (filter (λ kv, matches_source (ingest_books_into_table_cayene_op g) kv.1)
                (map_to_list (gcs_objects w))) as [|kv kvs] eqn:Hf; [done|].
    specialize (Hsub kv.1.2). rewrite Hl in Hsub.
    eapply elem_of_nil, Hsub. unfold source_names. rewrite Hf.
    cbn [fmap list_fmap]. apply elem_of_cons. by left.
Qed.

Lemma loaded_objects_are_listed_witness :
  ∃ l,
    list_objects (list_files_from_cayena_bucket_books_daily_data_op Sample.g)
      (dag_run (Sample.deployed Sample.site) Sample.may_5 (dag Sample.g)
         Sample.new_project).2 = Some l
    ∧ l = ["books-daily-data/2022-05-05/books.csv"]
    ∧ ∀ n, n ∈ source_names (ingest_books_into_table_cayene_op Sample.g)
                 (dag_run (Sample.deployed Sample.site) Sample.may_5 (dag Sample.g)
                    Sample.new_project).2 → n ∈ l.
Proof.
  eexists.
  match goal with |- ?E ∧ _ => assert E as Hl by (vm_compute; reflexivity) end.
  split; [exact Hl|]. split; [reflexivity|].
  exact (proj1 (loaded_objects_are_listed Sample.g _ _ Hl)).
Defined.

(** ** The table the check reads *)

Lemma string_length_app (s t : string) :
  String.length (s +:+ t) = String.length s + String.length t.
Proof.
  induction s as [|a s IH]; [reflexivity|].
  rewrite string_app_cons. cbn [String.length]. by rewrite IH.
Qed.

(** Two texts that end alike and are equal begin alike. *)
Lemma string_app_inv_tail (s1 s2 t : string) : s1 +:+ t = s2 +:+ t → s1 = s2.
Proof.
  revert s2. induction s1 as [|a s1 IH]; intros [|b s2] E.
  - reflexivity.
  - apply (f_equal String.length) in E.
    rewrite string_app_cons in E. cbn [String.length] in E.
    rewrite !string_length_app in E. cbn [String.length] in E. lia.
  - apply (f_equal String.length) in E.
    rewrite string_app_cons in E. cbn [String.length] in E.
    rewrite !string_length_app in E. cbn [String.length] in E. lia.
  - rewrite !string_app_cons in E. injection E as -> E. f_equal. by apply IH.
Qed.

(** X6.  The load names its table with the project id in front; the
    query of the check names it without.  When the project of the
    connection is the configured project, the count the check obtains
    after a load is the number of rows just loaded, so the check fails
    exactly when the matched objects hold no row beyond their first. *)
Theorem check_reads_loaded_table `{Core.Choices} (dep : deployment) (g : globals)
    (w w' : world) :
  default_project dep = PROJECT_ID g →
  load (ingest_books_into_table_cayene_op g) w = Some w' →
  row_count dep (sql (check_bq_cayena_table_count_op g)) w'
  = Some (length (concat (drop 1 <$> source_files (ingest_books_into_table_cayene_op g) w)))
  ∧ (check dep (check_bq_cayena_table_count_op g) w' = None
     ↔ Forall (λ f : csv, length f ≤ 1) (source_files (ingest_books_into_table_cayene_op g) w)).
Proof.
  intros Hp Hload. apply load_effect in Hload as (_ & Hw').
  assert (row_count dep (sql (check_bq_cayena_table_count_op g)) w'
          = Some (length (concat (drop 1 <$>
                                    source_files (ingest_books_into_table_cayene_op g) w))))
    as E.
  { rewrite Hw', row_count_whole_table. cbn [with_table bq_tables]. rewrite Hp.
    by rewrite lookup_insert_eq. }
  split; [exact E|].
  etransitivity; [apply check_fails|]. rewrite E.
  generalize (source_files (ingest_books_into_table_cayene_op g) w). intros files.
  split.
  - intros [X|X]; [discriminate|]. injection X as X.
    induction files as [|f files IH]; [constructor|].
    cbn [fmap list_fmap concat] in X. rewrite length_app, length_drop in X.
    constructor; [lia|]. apply IH. lia.
  - intros Hall. right. f_equal.
    induction Hall as [|f files Hf _ IH]; [reflexivity|].
    cbn [fmap list_fmap concat]. rewrite length_app, length_drop. lia.
Qed.

Lemma check_reads_loaded_table_witness :
  default_project (Sample.deployed Sample.site) = PROJECT_ID Sample.g
  ∧ load (ingest_books_into_table_cayene_op Sample.g)
         (with_object "cayena-bucket" "books-daily-data/2022-05-05/books.csv"
            [Core.header; ["Soumission"; "50.10"; "true"; "1"; "soumission_998"; "2022-05-05"]]
            (with_bucket "cayena-bucket" Sample.new_project))
    = Some (with_table "cayena-project.cayena.books"
              {| schema := Core.header;
                 rows := [["Soumission"; "50.10"; "true"; "1"; "soumission_998";
                           "2022-05-05"]] |}
              (with_object "cayena-bucket" "books-daily-data/2022-05-05/books.csv"
                 [Core.header;
                  ["Soumission"; "50.10"; "true"; "1"; "soumission_998"; "2022-05-05"]]
                 (with_bucket "cayena-bucket" Sample.new_project)))
  ∧ row_count (Sample.deployed Sample.site)
              (sql (check_bq_cayena_table_count_op Sample.g))
              (with_table "cayena-project.cayena.books"
                 {| schema := Core.header;
                    rows := [["Soumission"; "50.10"; "true"; "1"; "soumission_998";
                              "2022-05-05"]] |}
                 (with_object "cayena-bucket" "books-daily-data/2022-05-05/books.csv"
                    [Core.header;
                     ["Soumission"; "50.10"; "true"; "1"; "soumission_998"; "2022-05-05"]]
                    (with_bucket "cayena-bucket" Sample.new_project)))
    = Some (length (concat (drop 1 <$>
              source_files (ingest_books_into_table_cayene_op Sample.g)
                (with_object "cayena-bucket" "books-daily-data/2022-05-05/books.csv"
                   [Core.header;
                    ["Soumission"; "50.10"; "true"; "1"; "soumission_998"; "2022-05-05"]]
                   (with_bucket "cayena-bucket" Sample.new_project))))).
Proof.
  split; [reflexivity|].
  match goal with |- ?E ∧ _ => assert E as Hl by (vm_compute; reflexivity) end.
  split; [exact Hl|].
  exact (proj1 (check_reads_loaded_table (Sample.deployed Sample.site) Sample.g _ _
                  eq_refl Hl)).
Defined.

(** X7.  When the project of the connection is not the configured
    project, the table the check reads is not the table the load writes:
    a load changes neither the count the check obtains nor its outcome. *)
Theorem check_misses_other_project `{Core.Choices} (dep : deployment) (g : globals)
    (w w' : world) :
  default_project dep ≠ PROJECT_ID g →
  load (ingest_books_into_table_cayene_op g) w = Some w' →
  row_count dep (sql (check_bq_cayena_table_count_op g)) w'
  = row_count dep (sql (check_bq_cayena_table_count_op g)) w
  ∧ (check dep (check_bq_cayena_table_count_op g) w' = None
     ↔ check dep (check_bq_cayena_table_count_op g) w = None).
Proof.
  intros Hp Hload. apply load_effect in Hload as (_ & Hw').
  assert (row_count dep (sql (check_bq_cayena_table_count_op g)) w'
          = row_count dep (sql (check_bq_cayena_table_count_op g)) w) as E.
  { rewrite Hw', !row_count_whole_table. cbn [with_table bq_tables].
    rewrite lookup_insert_ne; [done|].
    intros Heq. apply Hp. symmetry. by apply string_app_inv_tail in Heq. }
  split; [exact E|].
  etransitivity; [apply check_fails|]. rewrite E. symmetry. apply check_fails.
Qed.

Lemma check_misses_other_project_witness :
  default_project (Sample.deployed Sample.site) ≠ PROJECT_ID Sample.g_staging
  ∧ load (ingest_books_into_table_cayene_op Sample.g_staging)
         (with_object "cayena-bucket" "books-daily-data/2022-05-05/books.csv"
            [Core.header; ["Soumission"; "50.10"; "true"; "1"; "soumission_998"; "2022-05-05"]]
            (with_bucket "cayena-bucket" Sample.new_project))
    = Some (with_table "cayena-staging.cayena_staging.books_staging"
              {| schema := Core.header;
                 rows := [["Soumission"; "50.10"; "true"; "1"; "soumission_998";
                           "2022-05-05"]] |}
              (with_object "cayena-bucket" "books-daily-data/2022-05-05/books.csv"
                 [Core.header;
                  ["Soumission"; "50.10"; "true"; "1"; "soumission_998"; "2022-05-05"]]
                 (with_bucket "cayena-bucket" Sample.new_project)))
  ∧ row_count (Sample.deployed Sample.site)
              (sql (check_bq_cayena_table_count_op Sample.g_staging))
              (with_table "cayena-staging.cayena_staging.books_staging"
                 {| schema := Core.header;
                    rows := [["Soumission"; "50.10"; "true"; "1"; "soumission_998";
                              "2022-05-05"]] |}
                 (with_object "cayena-bucket" "books-daily-data/2022-05-05/books.csv"
                    [Core.header;
                     ["Soumission"; "50.10"; "true"; "1"; "soumission_998"; "2022-05-05"]]
                    (with_bucket "cayena-bucket" Sample.new_project)))
    = row_count (Sample.deployed Sample.site)
                (sql (check_bq_cayena_table_count_op Sample.g_staging))
                (with_object "cayena-bucket" "books-daily-data/2022-05-05/books.csv"
                   [Core.header;
                    ["Soumission"; "50.10"; "true"; "1"; "soumission_998"; "2022-05-05"]]
                   (with_bucket "cayena-bucket" Sample.new_project)).
Proof.
  assert (default_project (Sample.deployed Sample.site) ≠ PROJECT_ID Sample.g_staging) as Hp
    by discriminate.
  split; [exact Hp|].
  match goal with |- ?E ∧ _ => assert E as Hl by (vm_compute; reflexivity) end.
  split; [exact Hl|].
  exact (proj1 (check_misses_other_project (Sample.deployed Sample.site) Sample.g_staging
                  _ _ Hp Hl)).
Defined.

(** ** What a run leaves untouched *)

Section Frame.

Context `{Core.Choices}.

Variable dep : deployment.


End Frame.



(** ** What the load reads *)

Lemma glob_empty_inv (s : string) : Text.glob_match "" s = true → s = "".
Proof. by destruct s. Qed.

Lemma glob_star_inv (p s : string) :
  Text.glob_match (String "*" p) s = true →
  ∃ s1 s2, s = s1 +:+ s2 ∧ Text.glob_match p s2 = true.
Proof.
  induction s as [|a s IH].
  - cbn. rewrite orb_false_r. intros E. by exists "", "".
  - intros E.
    assert (Text.glob_match p (String a s) = true
            ∨ Text.glob_match (String "*" p) s = true) as [E'|E'].
    { cbn in E. apply orb_true_iff in E as [E|E]; [by left|right].
      cbn. exact E. }
    + by exists "", (String a s).
    + destruct (IH E') as (s1 & s2 & -> & E2). by exists (String a s1), s2.
Qed.

(** X9.  The pattern of the load task matches exactly the names made of
    [books-daily-data/], any text, sub-folders included, and [.csv]. *)
Theorem load_pattern_matches (g : globals) (n : string) :
  Forall (λ p, Text.glob_match p n = true)
         (source_objects (ingest_books_into_table_cayene_op g))
  ↔ ∃ m, n = "books-daily-data/" +:+ m +:+ ".csv".
Proof.
  cbn [source_objects ingest_books_into_table_cayene_op]. split.
  - intros E. apply Forall_cons in E as [E _].
    do 17 (apply glob_literal_inv in E as (? & -> & E); [|done]).
    apply glob_star_inv in E as (s1 & s2 & -> & E).
    do 4 (apply glob_literal_inv in E as (? & -> & E); [|done]).
    apply glob_empty_inv in E as ->.
    by exists s1.
  - intros [m ->]. constructor; [|constructor].
    rewrite !string_app_cons. do 17 (rewrite glob_literal by done).
    change ("" +:+ ?x) with x.
    by apply glob_star_suffix.
Qed.

Lemma elem_of_concat {A} (x : A) (ls : list (list A)) :
  x ∈ concat ls ↔ ∃ l, x ∈ l ∧ l ∈ ls.
Proof.
  induction ls as [|l ls IH]; cbn [concat].
  - split; [by intros ?%elem_of_nil|by intros (? & _ & ?%elem_of_nil)].
  - rewrite elem_of_app, IH. split.
    + intros [Hx|(l' & Hx & Hl)].
      * exists l. split; [done|]. apply elem_of_cons. by left.
      * exists l'. split; [done|]. apply elem_of_cons. by right.
    + intros (l' & Hx & [->|Hl]%elem_of_cons); [by left|right; by exists l'].
Qed.

(** X10.  After a load, the table holds the rows of the matching objects
    of the bucket beyond their first row, and no other row: whatever the
    table held before is gone, and an object of any date that matches is
    read. *)
Theorem table_is_what_the_bucket_holds (g : globals) (w w' : world) (r : row) :
  load (ingest_books_into_table_cayene_op g) w = Some w' →
  ∃ t,
    bq_tables w' !! destination_project_dataset_table (ingest_books_into_table_cayene_op g)
      = Some t
    ∧ (r ∈ rows t ↔
       ∃ n content,
         gcs_objects w !! (CAYENA_BUCKET g, n) = Some content
         ∧ Text.glob_match "books-daily-data/*.csv" n = true
         ∧ r ∈ drop 1 content).
Proof.
  intros Hload. apply load_effect in Hload as (_ & ->).
  eexists. split.
  { cbn [with_table bq_tables destination_project_dataset_table
         ingest_books_into_table_cayene_op]. apply lookup_insert_eq. }
  cbn [rows]. unfold source_files. rewrite elem_of_concat. split.
  - intros (f & Hr & Hf).
    apply list_elem_of_fmap in Hf as (content & -> & Hc).
    apply list_elem_of_fmap in Hc as ([[b n] content'] & -> & Hkv).
    apply list_elem_of_filter in Hkv as [Hm Hkv].
    apply elem_of_map_to_list in Hkv.
    rewrite matches_source_ingest in Hm. cbn [fst snd] in Hm.
    apply andb_prop_elim in Hm as [Hm1 Hm2].
    apply bool_decide_unpack in Hm1. subst b.
    apply Is_true_eq_true in Hm2.
    by exists n, content'.
  - intros (n & content & Hlk & Hg & Hr).
    exists (drop 1 content). split; [exact Hr|].
    apply list_elem_of_fmap_2.
    apply list_elem_of_fmap. exists ((CAYENA_BUCKET g, n), content). split; [done|].
    apply list_elem_of_filter. split.
    + rewrite matches_source_ingest. cbn [fst snd].
      rewrite Hg. rewrite bool_decide_eq_true_2 by done. exact I.
    + by apply elem_of_map_to_list.
Qed.

Lemma table_is_what_the_bucket_holds_witness :
  load (ingest_books_into_table_cayene_op Sample.g)
       (with_object "cayena-bucket" "books-daily-data/2022-05-05/books.csv"
          [Core.header; ["Soumission"; "50.10"; "true"; "1"; "soumission_998"; "2022-05-05"]]
          (with_bucket "cayena-bucket" Sample.new_project))
  = Some (with_table "cayena-project.cayena.books"
            {| schema := Core.header;
               rows := [["Soumission"; "50.10"; "true"; "1"; "soumission_998";
                         "2022-05-05"]] |}
            (with_object "cayena-bucket" "books-daily-data/2022-05-05/books.csv"
               [Core.header;
                ["Soumission"; "50.10"; "true"; "1"; "soumission_998"; "2022-05-05"]]
               (with_bucket "cayena-bucket" Sample.new_project)))
  ∧ ∃ t,
      bq_tables
        (with_table "cayena-project.cayena.books"
           {| schema := Core.header;
              rows := [["Soumission"; "50.10"; "true"; "1"; "soumission_998";
                        "2022-05-05"]] |}
           (with_object "cayena-bucket" "books-daily-data/2022-05-05/books.csv"
              [Core.header;
               ["Soumission"; "50.10"; "true"; "1"; "soumission_998"; "2022-05-05"]]
              (with_bucket "cayena-bucket" Sample.new_project)))
        !! destination_project_dataset_table (ingest_books_into_table_cayene_op Sample.g)
      = Some t
      ∧ (Core.header ∈ rows t ↔
         ∃ n content,
           gcs_objects
             (with_object "cayena-bucket" "books-daily-data/2022-05-05/books.csv"
                [Core.header;
                 ["Soumission"; "50.10"; "true"; "1"; "soumission_998"; "2022-05-05"]]
                (with_bucket "cayena-bucket" Sample.new_project))
             !! (CAYENA_BUCKET Sample.g, n) = Some content
           ∧ Text.glob_match "books-daily-data/*.csv" n = true
           ∧ Core.header ∈ drop 1 content).
Proof.
  match goal with |- ?E ∧ _ => assert E as Hl by (vm_compute; reflexivity) end.
  split; [exact Hl|].
  exact (table_is_what_the_bucket_holds Sample.g _ _ Core.header Hl).
Defined.
